(** * generate-favicons.py: a shallow embedding and its properties

    The script reads [public/logo.png], mattes it on the theme colour,
    writes five PNG favicons, one [favicon.ico] and [site.webmanifest].

    Layout of this development:
    - strings and paths ([pathlib.Path] as a list of components);
    - the parts of the Pillow API the script calls ([Image.new], [convert],
      [split], [paste], [copy], [resize], [save]);
    - the process state (file system and the trace of observable events)
      with a small state-and-exception monad;
    - the script itself, [generate_favicons] and the [__main__] block;
    - the properties. *)

From Stdlib Require Import ZArith String Ascii List Lia.
From stdpp Require Import base gmap strings list pretty.

Open Scope Z_scope.

(** ** Strings *)

(** The two characters that cannot be typed inside a literal. *)
Definition nl : string := String (ascii_of_nat 10) EmptyString.
Definition dq : string := String (ascii_of_nat 34) EmptyString.

(** [quoted s] is [s] between double quotes. *)
Definition quoted (s : string) : string := dq +:+ s +:+ dq.

(** [join_lines ls] ends every line of [ls] with a newline. *)
Fixpoint join_lines (ls : list string) : string :=
  match ls with
  | [] => EmptyString
  | l :: ls' => l +:+ nl +:+ join_lines ls'
  end.

(** ** Paths

    A [pathlib.Path] is its sequence of components; [p </> s] appends one
    component and [parent] drops the last one. *)

Abbreviation Path := (list string).

Definition joinpath (p : Path) (s : string) : Path := p ++ [s].
Infix "</>" := joinpath (at level 40, left associativity).

Definition parent (p : Path) : Path := removelast p.

(** [str(path)]: the components separated by a slash. *)
Fixpoint path_str (p : Path) : string :=
  match p with
  | [] => "."
  | [s] => s
  | s :: p' => s +:+ "/" +:+ path_str p'
  end.

(** ** Images, as Pillow holds them *)

(** A pixel is the list of its band values, each a byte. *)
Abbreviation Pixel := (list Z).

Record Image := mkImage {
  im_mode : string;          (* "RGBA", "RGB", "L", "P", ... *)
  im_size : Z * Z;           (* (width, height) *)
  im_data : list Pixel       (* row-major *)
}.

(** [Image.Resampling] *)
Inductive Resampling := NEAREST | BOX | BILINEAR | HAMMING | BICUBIC | LANCZOS.

(** What a file holds.  A file that [Image.save] wrote is represented by the
    arguments of the call (the encoders are deterministic functions of
    them; [params] are the boolean keyword arguments, such as [optimize]);
    a text file by its characters; any other file by its bytes. *)
Inductive FileData :=
| Foreign (bytes : list Z)
| Encoded (format : string) (im : Image) (params : list (string * bool))
| Text (s : string).

(** Exceptions carry their class name and message. *)
Record Exception := mkException { exc_type : string; exc_msg : string }.

(** *** Pixel arithmetic of [Image.paste] (libImaging, [Paste.c]) *)

(** [DIV255(a, tmp) = (tmp = a + 128, ((tmp >> 8) + tmp) >> 8)] *)
Definition DIV255 (a : Z) : Z :=
  let tmp := a + 128 in Z.shiftr (Z.shiftr tmp 8 + tmp) 8.

(** [BLEND(mask, in1, in2, tmp) = DIV255(in1 * (255 - mask) + in2 * mask, tmp)] *)
Definition BLEND (mask in1 in2 : Z) : Z :=
  DIV255 (in1 * (255 - mask) + in2 * mask).

(** One pixel of [paste_mask_L]: every band of [out] is blended with the
    band of [inp] at the same position, weighted by the matte value. *)
Definition paste_pixel (out inp mask : Pixel) : Pixel :=
  let a := hd 0 mask in
  zip_with (fun o i => BLEND a o i) out inp.

(** [Image.getbands]: the number of bands of a mode. *)
Definition bands_of_mode (m : string) : nat :=
  if String.eqb m "RGBA" then 4
  else if String.eqb m "RGBa" then 4
  else if String.eqb m "RGBX" then 4
  else if String.eqb m "CMYK" then 4
  else if String.eqb m "RGB" then 3
  else if String.eqb m "YCbCr" then 3
  else if String.eqb m "LAB" then 3
  else if String.eqb m "HSV" then 3
  else if String.eqb m "LA" then 2
  else if String.eqb m "La" then 2
  else if String.eqb m "PA" then 2
  else 1.

(** [Image.new(mode, size, color)]: a canvas filled with [color]. *)
Definition Image_new (m : string) (sz : Z * Z) (color : Pixel) : Image :=
  {| im_mode := m;
     im_size := sz;
     im_data := replicate (Z.to_nat (fst sz * snd sz)) color |}.

(** [im.getchannel(k)]: band [k] as an image of mode ["L"]. *)
Definition getchannel (k : nat) (im : Image) : Image :=
  {| im_mode := "L";
     im_size := im_size im;
     im_data := map (fun p => [nth k p 0]) (im_data im) |}.

(** [im.split()]: the tuple of the bands. *)
Definition split (im : Image) : list Image :=
  map (fun k => getchannel k im) (seq 0 (bands_of_mode (im_mode im))).

(** [im.copy()] *)
Definition copy (im : Image) : Image := im.

(** *** The ICO writer ([IcoImagePlugin._save])

    Without a [sizes] argument the writer embeds one image for every entry
    of its default size list that is no larger than the image saved. *)
Definition ICO_DEFAULT_SIZES : list (Z * Z) :=
  [(16, 16); (24, 24); (32, 32); (48, 48); (64, 64); (128, 128); (256, 256)].

Definition ico_size_fits (im : Image) (sz : Z * Z) : bool :=
  negb ((fst sz >? fst (im_size im)) || (snd sz >? snd (im_size im))
        || (fst sz >? 256) || (snd sz >? 256)).

Definition ico_frame_sizes (im : Image) : list (Z * Z) :=
  List.filter (ico_size_fits im) ICO_DEFAULT_SIZES.

(** The sizes of the images embedded in a file of the ICO format. *)
Definition embedded_sizes (d : FileData) : list (Z * Z) :=
  match d with
  | Encoded format im params =>
      if String.eqb format "ICO" then ico_frame_sizes im else [im_size im]
  | _ => []
  end.

(** ** The process state *)

(** What a run does that can be observed from outside, in order. *)
Inductive Event :=
| Stdout (line : string)
| Stderr (text : string)
| Wrote (p : Path) (d : FileData).

Record World := mkWorld {
  fs : gmap Path FileData;
  events : list Event
}.

(** A statement either completes with a value or raises. *)
Inductive Outcome (A : Type) :=
| Returned (a : A)
| Raised (e : Exception).
Arguments Returned {A} a.
Arguments Raised {A} e.

Definition Py (A : Type) : Type := World -> Outcome A * World.

Definition ret {A} (a : A) : Py A := fun w => (Returned a, w).

Definition raise {A} (e : Exception) : Py A := fun w => (Raised e, w).

Definition bind {A B} (c : Py A) (k : A -> Py B) : Py B :=
  fun w =>
    match c w with
    | (Returned a, w') => k a w'
    | (Raised e, w') => (Raised e, w')
    end.

Notation "x <~ c ;; k" := (bind c (fun x => k))
  (at level 100, c at next level, right associativity).
Notation "c ;;; k" := (bind c (fun _ => k))
  (at level 100, right associativity).

Definition emit (e : Event) : Py unit :=
  fun w => (Returned tt, {| fs := fs w; events := events w ++ [e] |}).

(** [print(s)] *)
Definition print (s : string) : Py unit := emit (Stdout s).

(** [path.exists()] *)
Definition path_exists (p : Path) : Py bool :=
  fun w => (Returned (bool_decide (is_Some (fs w !! p))), w).

(** A [for] loop over a list. *)
Fixpoint for_each {A} (l : list A) (body : A -> Py unit) : Py unit :=
  match l with
  | [] => ret tt
  | x :: l' => body x ;;; for_each l' body
  end.

(** The events of a trace that are file writes. *)
Definition writes (tr : list Event) : list (Path * FileData) :=
  omap (fun e => match e with Wrote p d => Some (p, d) | _ => None end) tr.

(** ** The script *)

(** Favicon sizes to generate (a [dict] iterates in insertion order). *)
Definition FAVICON_SIZES : list (string * Z) :=
  [ ("favicon-16x16.png", 16);
    ("favicon-32x32.png", 32);
    ("apple-touch-icon.png", 180);
    ("android-chrome-192x192.png", 192);
    ("android-chrome-512x512.png", 512) ].

(** Use app theme color: #063940 = rgba(6, 57, 64, 255) *)
Definition background_color_rgba : Pixel := [6; 57; 64; 255].

(** The text written to [site.webmanifest] (lines 86 to 107 of the script). *)
Definition manifest_content : string :=
  join_lines
    [ "{";
      "  " +:+ quoted "name" +:+ ": " +:+ quoted "Zendesk App Icon Generator" +:+ ",";
      "  " +:+ quoted "short_name" +:+ ": " +:+ quoted "ZDK Icon Gen" +:+ ",";
      "  " +:+ quoted "description" +:+ ": "
           +:+ quoted "Generate compliant Zendesk app icon bundles" +:+ ",";
      "  " +:+ quoted "icons" +:+ ": [";
      "    {";
      "      " +:+ quoted "src" +:+ ": " +:+ quoted "/android-chrome-192x192.png" +:+ ",";
      "      " +:+ quoted "sizes" +:+ ": " +:+ quoted "192x192" +:+ ",";
      "      " +:+ quoted "type" +:+ ": " +:+ quoted "image/png";
      "    },";
      "    {";
      "      " +:+ quoted "src" +:+ ": " +:+ quoted "/android-chrome-512x512.png" +:+ ",";
      "      " +:+ quoted "sizes" +:+ ": " +:+ quoted "512x512" +:+ ",";
      "      " +:+ quoted "type" +:+ ": " +:+ quoted "image/png";
      "    }";
      "  ],";
      "  " +:+ quoted "theme_color" +:+ ": " +:+ quoted "#063940" +:+ ",";
      "  " +:+ quoted "background_color" +:+ ": " +:+ quoted "#063940" +:+ ",";
      "  " +:+ quoted "display" +:+ ": " +:+ quoted "standalone" +:+ ",";
      "  " +:+ quoted "start_url" +:+ ": " +:+ quoted "/";
      "}" ].

(** The document that the specification prints in its section 6, line by
    line as it is printed there (both icon entries on one line each). *)
Definition spec_manifest_lines : list string :=
  [ "{";
    "  " +:+ quoted "name" +:+ ": " +:+ quoted "Zendesk App Icon Generator" +:+ ",";
    "  " +:+ quoted "short_name" +:+ ": " +:+ quoted "ZDK Icon Gen" +:+ ",";
    "  " +:+ quoted "description" +:+ ": "
         +:+ quoted "Generate compliant Zendesk app icon bundles" +:+ ",";
    "  " +:+ quoted "icons" +:+ ": [";
    "    {" +:+ quoted "src" +:+ ": " +:+ quoted "/android-chrome-192x192.png" +:+ ", "
            +:+ quoted "sizes" +:+ ": " +:+ quoted "192x192" +:+ ", "
            +:+ quoted "type" +:+ ": " +:+ quoted "image/png" +:+ "},";
    "    {" +:+ quoted "src" +:+ ": " +:+ quoted "/android-chrome-512x512.png" +:+ ", "
            +:+ quoted "sizes" +:+ ": " +:+ quoted "512x512" +:+ ", "
            +:+ quoted "type" +:+ ": " +:+ quoted "image/png" +:+ "}";
    "  ],";
    "  " +:+ quoted "theme_color" +:+ ": " +:+ quoted "#063940" +:+ ",";
    "  " +:+ quoted "background_color" +:+ ": " +:+ quoted "#063940" +:+ ",";
    "  " +:+ quoted "display" +:+ ": " +:+ quoted "standalone" +:+ ",";
    "  " +:+ quoted "start_url" +:+ ": " +:+ quoted "/";
    "}" ].

Definition spec_manifest : string := join_lines spec_manifest_lines.

(** ** A small concrete environment

    A decoder, a converter and a nearest-neighbour resampler simple enough
    to run, and a logo of two by two pixels.  They instantiate the
    environment of the script wherever a statement is checked on an input. *)

Definition sample_script_file : Path := ["repo"; "scripts"; "generate-favicons.py"].

Definition sample_decode (d : FileData) : Exception + Image :=
  match d with
  | Foreign [] =>
      inl (mkException "UnidentifiedImageError" "cannot identify image file")
  | Foreign bytes =>
      inr {| im_mode := "L";
             im_size := (Z.of_nat (length bytes), 1);
             im_data := map (fun b => [b]) bytes |}
  | Encoded _ im _ => inr im
  | Text _ =>
      inl (mkException "UnidentifiedImageError" "cannot identify image file")
  end.

Definition sample_convert_data (im : Image) (m : string) : list Pixel :=
  map (fun p => match p with
                | [v] => [v; v; v; 255]
                | [v; a] => [v; v; v; a]
                | [r; g; b] => [r; g; b; 255]
                | _ => p
                end) (im_data im).

Definition sample_resample (r : Resampling) (im : Image) (sz : Z * Z) : list Pixel :=
  let W := fst (im_size im) in
  let H := snd (im_size im) in
  flat_map (fun j =>
    map (fun i =>
      nth (Z.to_nat ((Z.of_nat j * H / snd sz) * W + Z.of_nat i * W / fst sz))
          (im_data im) [])
      (seq 0 (Z.to_nat (fst sz))))
    (seq 0 (Z.to_nat (snd sz))).

Definition sample_open_error (p : Path) : option Exception := None.

Definition sample_format_exc (e : Exception) : string :=
  "Traceback (most recent call last):" +:+ nl +:+ exc_type e +:+ ": " +:+ exc_msg e.

Definition sample_logo : Image :=
  {| im_mode := "RGBA";
     im_size := (2, 2);
     im_data := [ [200; 100; 50; 255]; [0; 255; 0; 0];
                  [0; 0; 255; 128]; [10; 20; 30; 255] ] |}.

Definition sample_logo_file : FileData := Encoded "PNG" sample_logo [].

(** A project that holds nothing. *)
Definition empty_world : World := {| fs := ∅; events := [] |}.

(** ** Arithmetic of the blend *)

(** [DIV255] is division by 255 rounded to the nearest integer. *)
Lemma DIV255_nearest (v : Z) :
  0 <= v <= 65025 -> 255 * DIV255 v - 127 <= v <= 255 * DIV255 v + 127.
Proof.
  intros H. unfold DIV255. cbv zeta. rewrite !Z.shiftr_div_pow2 by lia.
  change (2 ^ 8) with 256. Z.div_mod_to_equations. lia.
Qed.

Lemma BLEND_range (a x y : Z) :
  0 <= a <= 255 -> 0 <= x <= 255 -> 0 <= y <= 255 ->
  0 <= x * (255 - a) + y * a <= 65025.
Proof. intros Ha Hx Hy. nia. Qed.

(** Between the two colours the blend is linear in the matte, to the
    nearest integer. *)
Lemma BLEND_linear (a x y : Z) :
  0 <= a <= 255 -> 0 <= x <= 255 -> 0 <= y <= 255 ->
  Z.abs (255 * BLEND a x y - (x * (255 - a) + y * a)) <= 127.
Proof.
  intros Ha Hx Hy. unfold BLEND.
  pose proof (DIV255_nearest _ (BLEND_range a x y Ha Hx Hy)). lia.
Qed.

Lemma BLEND_opaque (x y : Z) : 0 <= y <= 255 -> BLEND 255 x y = y.
Proof.
  intros Hy. unfold BLEND.
  replace (x * (255 - 255) + y * 255) with (255 * y) by lia.
  pose proof (DIV255_nearest (255 * y)). lia.
Qed.

Lemma BLEND_transparent (x y : Z) : 0 <= x <= 255 -> BLEND 0 x y = x.
Proof.
  intros Hx. unfold BLEND.
  replace (x * (255 - 0) + y * 0) with (255 * x) by lia.
  pose proof (DIV255_nearest (255 * x)). lia.
Qed.

Section Script.

(** *** The environment of a run *)

(** [__file__], the location of the script. *)
Variable script_file : Path.

(** The decoder behind [Image.open]: the image a file decodes to, or the
    exception it raises. *)
Variable decode : FileData -> Exception + Image.

(** Pixel conversion between modes and resampling, left to the library. *)
Variable convert_data : Image -> string -> list Pixel.
Variable resample : Resampling -> Image -> Z * Z -> list Pixel.

(** The error, if any, that opening a path for writing meets. *)
Variable open_error : Path -> option Exception.

(** [traceback.format_exc] *)
Variable format_exc : Exception -> string.

(** *** Pillow operations that depend on it *)

(** [im.convert(mode)]: same size, the requested mode. *)
Definition convert (im : Image) (m : string) : Image :=
  {| im_mode := m; im_size := im_size im; im_data := convert_data im m |}.

(** [im.resize(size, resample)]: the requested size, the mode of [im]. *)
Definition resize (im : Image) (sz : Z * Z) (r : Resampling) : Image :=
  {| im_mode := im_mode im; im_size := sz; im_data := resample r im sz |}.

(** [base.paste(im, mask=mask)] with a matte of mode ["L"], over the whole
    canvas.  An image of another mode is converted to the mode of [base]
    first, except an image with alpha pasted on an ["RGB"] canvas. *)
Definition paste (base im mask : Image) : Image :=
  let im :=
    if negb (String.eqb (im_mode base) (im_mode im))
       && (negb (String.eqb (im_mode base) "RGB")
           || negb (String.eqb (im_mode im) "LA" || String.eqb (im_mode im) "RGBA"
                    || String.eqb (im_mode im) "RGBa"))
    then convert im (im_mode base)
    else im in
  {| im_mode := im_mode base;
     im_size := im_size base;
     im_data :=
       zip_with (fun oi m => paste_pixel (fst oi) (snd oi) m)
                (zip (im_data base) (im_data im)) (im_data mask) |}.

(** [Image.open(path)] *)
Definition Image_open (p : Path) : Py Image :=
  fun w =>
    match fs w !! p with
    | Some d =>
        match decode d with
        | inr im => (Returned im, w)
        | inl e => (Raised e, w)
        end
    | None => (Raised (mkException "FileNotFoundError" (path_str p)), w)
    end.

(** Creating or replacing the file at [p]. *)
Definition write_file (p : Path) (d : FileData) : Py unit :=
  fun w =>
    match open_error p with
    | Some e => (Raised e, w)
    | None =>
        (Returned tt,
         {| fs := <[p := d]> (fs w); events := events w ++ [Wrote p d] |})
    end.

(** [im.save(path, format, **params)] *)
Definition save (im : Image) (p : Path) (format : string)
    (params : list (string * bool)) : Py unit :=
  write_file p (Encoded format im params).

(** [with open(path, 'w') as f: f.write(s)] *)
Definition write_text (p : Path) (s : string) : Py unit :=
  write_file p (Text s).

(** *** Configuration *)

Definition SCRIPT_DIR : Path := parent script_file.
Definition PROJECT_ROOT : Path := parent SCRIPT_DIR.
Definition PUBLIC_DIR : Path := PROJECT_ROOT </> "public".
Definition APP_DIR : Path := PROJECT_ROOT </> "app".
Definition LOGO_PATH : Path := PUBLIC_DIR </> "logo.png".

(** *** The steps of [generate_favicons] on the decoded image *)

(** Ensure image is in RGBA format (lines 39 to 45). *)
Definition ensure_rgba (img_original : Image) : Image :=
  if negb (String.eqb (im_mode img_original) "RGBA") then
    if String.eqb (im_mode img_original) "P" then
      convert img_original "RGBA"
    else if String.eqb (im_mode img_original) "LA"
            || String.eqb (im_mode img_original) "L" then
      convert img_original "RGBA"
    else
      convert img_original "RGBA"
  else img_original.

(** Create version with background for RGB PNGs (lines 51 and 52); the
    tuple that [split] returns is never empty. *)
Definition make_img_rgb (img_original : Image) : Image :=
  let img_rgb := Image_new "RGB" (im_size img_original) (take 3 background_color_rgba) in
  paste img_rgb img_original (List.last (split img_original) img_original).

(** Keep RGBA version for ICO (line 55). *)
Definition make_img_rgba (img_original : Image) : Image := copy img_original.

(** Line 69. *)
Definition ico_size : Z := 32.
Definition resize_ico (img_rgba : Image) : Image :=
  resize img_rgba (ico_size, ico_size) LANCZOS.

(** The test of line 72. *)
Definition ico_needs_convert (ico_img : Image) : bool :=
  negb (String.eqb (im_mode ico_img) "RGBA").

(** Ensure it's definitely RGBA (lines 72 and 73). *)
Definition recheck_ico (ico_img : Image) : Image :=
  if ico_needs_convert ico_img then convert ico_img "RGBA" else ico_img.

(** The body of the loop of lines 59 to 63. *)
Definition emit_png (img_rgb : Image) (entry : string * Z) : Py unit :=
  let filename := fst entry in
  let size := snd entry in
  let output_path := PUBLIC_DIR </> filename in
  let resized := resize img_rgb (size, size) LANCZOS in
  save resized output_path "PNG" [("optimize", true)] ;;;
  print ("  ✓ Created " +:+ filename +:+ " (" +:+ pretty size +:+ "x"
         +:+ pretty size +:+ ")").

(** *** [generate_favicons] *)

Definition generate_favicons : Py bool :=
  found <~ path_exists LOGO_PATH ;;
  if negb found then
    print ("Error: " +:+ path_str LOGO_PATH +:+ " not found!") ;;;
    ret false
  else
    print ("Loading source image: " +:+ path_str LOGO_PATH) ;;;
    img_original <~ Image_open LOGO_PATH ;;
    let img_original := ensure_rgba img_original in
    let img_rgb := make_img_rgb img_original in
    let img_rgba := make_img_rgba img_original in
    print (nl +:+ "Generating PNG favicons...") ;;;
    for_each FAVICON_SIZES (emit_png img_rgb) ;;;
    print (nl +:+ "Generating favicon.ico...") ;;;
    let ico_img := resize_ico img_rgba in
    let ico_img := recheck_ico ico_img in
    let ico_path_public := PUBLIC_DIR </> "favicon.ico" in
    save ico_img ico_path_public "ICO" [] ;;;
    print ("  ✓ Created " +:+ path_str ico_path_public +:+ " (" +:+ pretty ico_size
           +:+ "x" +:+ pretty ico_size +:+ ")") ;;;
    print (nl +:+ "Generating site.webmanifest...") ;;;
    let manifest_path := PUBLIC_DIR </> "site.webmanifest" in
    write_text manifest_path manifest_content ;;;
    print "  ✓ Created site.webmanifest" ;;;
    print (nl +:+ "✅ All favicon files generated successfully!") ;;;
    ret true.

(** *** The [__main__] block

    The value that [generate_favicons] returns is dropped; an exception is
    reported and the process leaves through [exit(1)]; otherwise the
    interpreter ends with status 0. *)
Definition script_main (w : World) : Z * World :=
  match generate_favicons w with
  | (Returned _, w') => (0, w')
  | (Raised e, w') =>
      let report :=
        print (nl +:+ "❌ Error: " +:+ exc_msg e) ;;;
        emit (Stderr (format_exc e)) in
      (1, snd (report w'))
  end.

(** *** What a successful run leaves behind *)

(** The seven names the script writes under [PUBLIC_DIR]. *)
Definition OUTPUT_NAMES : list string :=
  map fst FAVICON_SIZES ++ ["favicon.ico"; "site.webmanifest"].

Definition output_paths : list Path := map (joinpath PUBLIC_DIR) OUTPUT_NAMES.

(** The opaque and the alpha-preserving variant of a decoded image. *)
Definition opaque_variant (im : Image) : Image := make_img_rgb (ensure_rgba im).
Definition alpha_variant (im : Image) : Image := make_img_rgba (ensure_rgba im).

Definition png_file (img_rgb : Image) (size : Z) : FileData :=
  Encoded "PNG" (resize img_rgb (size, size) LANCZOS) [("optimize", true)].

Definition ico_file (img_rgba : Image) : FileData :=
  Encoded "ICO" (recheck_ico (resize_ico img_rgba)) [].

(** The writes of a successful run on the decoded image [im], in order. *)
Definition success_writes (im : Image) : list (Path * FileData) :=
  map (fun entry => (PUBLIC_DIR </> fst entry, png_file (opaque_variant im) (snd entry)))
      FAVICON_SIZES
  ++ [ (PUBLIC_DIR </> "favicon.ico", ico_file (alpha_variant im));
       (PUBLIC_DIR </> "site.webmanifest", Text manifest_content) ].

(** Performing a list of writes on a file system, first to last. *)
Definition write_all (ws : list (Path * FileData)) (m : gmap Path FileData)
    : gmap Path FileData :=
  foldl (fun m pd => <[fst pd := snd pd]> m) m ws.

(** The data that the last write to [p] in [ws] left there, if any. *)
Definition last_write (p : Path) (ws : list (Path * FileData)) : option FileData :=
  foldl (fun acc pd => if decide (fst pd = p) then Some (snd pd) else acc) None ws.

(** A computation is confined to the paths [S] when it changes no other
    path and only extends the trace, with writes to [S] alone. *)
Definition confined {A} (S : list Path) (c : Py A) : Prop :=
  forall w,
    (forall p, p ∉ S -> fs (snd (c w)) !! p = fs w !! p)
    /\ exists tr, events (snd (c w)) = events w ++ tr
                  /\ forall pd, pd ∈ writes tr -> fst pd ∈ S.

(** ** Running the script, step by step *)

Lemma run_print {A} (s : string) (k : Py A) (w : World) :
  (print s ;;; k) w = k {| fs := fs w; events := events w ++ [Stdout s] |}.
Proof. reflexivity. Qed.

Lemma run_exists {A} (p : Path) (k : bool -> Py A) (w : World) :
  (found <~ path_exists p ;; k found) w
  = k (match fs w !! p with Some _ => true | None => false end) w.
Proof.
  unfold bind, path_exists.
  destruct (fs w !! p) eqn:E.
  - rewrite bool_decide_eq_true_2 by eauto. reflexivity.
  - rewrite bool_decide_eq_false_2 by (intros [x Hx]; discriminate). reflexivity.
Qed.

Lemma run_open_err {A} (p : Path) (k : Image -> Py A) (w : World) d e :
  fs w !! p = Some d -> decode d = inl e ->
  (img <~ Image_open p ;; k img) w = (Raised e, w).
Proof. intros H1 H2. unfold bind, Image_open. now rewrite H1, H2. Qed.

(** The source is missing: one line on the standard output, [False]. *)
Lemma generate_favicons_missing (w : World) :
  fs w !! LOGO_PATH = None ->
  generate_favicons w
  = (Returned false,
     {| fs := fs w;
        events := events w
                  ++ [Stdout ("Error: " +:+ path_str LOGO_PATH +:+ " not found!")] |}).
Proof.
  intros H. unfold generate_favicons. rewrite run_exists, H. reflexivity.
Qed.

(** The source does not decode: [Image.open] raises before any write. *)
Lemma generate_favicons_undecodable (w : World) d e :
  fs w !! LOGO_PATH = Some d -> decode d = inl e ->
  generate_favicons w
  = (Raised e,
     {| fs := fs w;
        events := events w
                  ++ [Stdout ("Loading source image: " +:+ path_str LOGO_PATH)] |}).
Proof.
  intros H1 H2. unfold generate_favicons. rewrite run_exists, H1.
  cbv beta iota delta [negb]. rewrite run_print.
  now rewrite (run_open_err _ _ _ d e).
Qed.

Lemma output_paths_unfold :
  output_paths
  = [ PUBLIC_DIR </> "favicon-16x16.png"; PUBLIC_DIR </> "favicon-32x32.png";
      PUBLIC_DIR </> "apple-touch-icon.png";
      PUBLIC_DIR </> "android-chrome-192x192.png";
      PUBLIC_DIR </> "android-chrome-512x512.png";
      PUBLIC_DIR </> "favicon.ico"; PUBLIC_DIR </> "site.webmanifest" ].
Proof. reflexivity. Qed.

(** Membership in a list that is written out. *)
Ltac in_list := repeat first [ apply list_elem_of_here | apply list_elem_of_further ].

(** The source decodes and every output can be opened: the run goes
    through all seven writes and returns [True]. *)
Lemma generate_favicons_success (w : World) d im :
  fs w !! LOGO_PATH = Some d -> decode d = inr im ->
  (forall p, p ∈ output_paths -> open_error p = None) ->
  exists tr,
    generate_favicons w
    = (Returned true,
       {| fs := write_all (success_writes im) (fs w); events := events w ++ tr |})
    /\ writes tr = success_writes im.
Proof.
  intros H1 H2 Hopen. rewrite output_paths_unfold in Hopen.
  pose proof (Hopen _ ltac:(in_list)) as O1.
  pose proof (Hopen _ ltac:(do 1 apply list_elem_of_further; in_list)) as O2.
  pose proof (Hopen _ ltac:(do 2 apply list_elem_of_further; in_list)) as O3.
  pose proof (Hopen _ ltac:(do 3 apply list_elem_of_further; in_list)) as O4.
  pose proof (Hopen _ ltac:(do 4 apply list_elem_of_further; in_list)) as O5.
  pose proof (Hopen _ ltac:(do 5 apply list_elem_of_further; in_list)) as O6.
  pose proof (Hopen _ ltac:(do 6 apply list_elem_of_further; in_list)) as O7.
  clear Hopen. destruct w as [m ev]. cbn [fs events] in *.
  unfold generate_favicons. rewrite run_exists. cbn [fs]. rewrite H1.
  cbv [negb bind print emit ret save write_text write_file Image_open for_each
       FAVICON_SIZES emit_png fst snd fs events].
  rewrite H1, H2, O1, O2, O3, O4, O5, O6, O7.
  rewrite <- !app_assoc. eexists. split; [reflexivity|]. reflexivity.
Qed.

(** One of the seven calls that open an output, in a run unfolded. *)
Ltac case_open name G :=
  destruct (open_error (PUBLIC_DIR </> name)) eqn:?; [discriminate G|].

(** Conversely, [True] is returned only in that case. *)
Lemma generate_favicons_true_inv (w : World) :
  fst (generate_favicons w) = Returned true ->
  exists d im,
    fs w !! LOGO_PATH = Some d /\ decode d = inr im
    /\ forall p, p ∈ output_paths -> open_error p = None.
Proof.
  destruct (generate_favicons w) as [o w'] eqn:G. cbn [fst]. intros ->.
  destruct w as [m ev]. unfold generate_favicons in G.
  rewrite run_exists in G. cbn [fs] in G.
  destruct (m !! LOGO_PATH) as [d|] eqn:E1; [|discriminate G].
  cbv [negb bind print emit ret save write_text write_file Image_open for_each
       FAVICON_SIZES emit_png fst snd fs events] in G.
  rewrite E1 in G. destruct (decode d) as [e|im] eqn:E2; [discriminate G|].
  case_open "favicon-16x16.png" G.
  case_open "favicon-32x32.png" G.
  case_open "apple-touch-icon.png" G.
  case_open "android-chrome-192x192.png" G.
  case_open "android-chrome-512x512.png" G.
  case_open "favicon.ico" G.
  case_open "site.webmanifest" G.
  exists d, im. split; [exact E1|]. split; [exact E2|].
  intros p Hp. rewrite output_paths_unfold in Hp.
  repeat (apply elem_of_cons in Hp as [->|Hp]; [assumption|]).
  now apply elem_of_nil in Hp.
Qed.

(** ** Confinement *)

Lemma writes_app (tr1 tr2 : list Event) :
  writes (tr1 ++ tr2) = writes tr1 ++ writes tr2.
Proof. apply omap_app. Qed.

Lemma confined_ret {A} S (a : A) : confined S (ret a).
Proof.
  intros w. split; [reflexivity|]. exists []. cbn.
  split; [now rewrite app_nil_r|]. intros pd H. now apply elem_of_nil in H.
Qed.

Lemma confined_bind {A B} S (c : Py A) (k : A -> Py B) :
  confined S c -> (forall a, confined S (k a)) -> confined S (bind c k).
Proof.
  intros Hc Hk w. unfold bind. destruct (Hc w) as [F1 [tr1 [E1 W1]]].
  destruct (c w) as [[a|e] w1]; cbn [snd] in *.
  - destruct (Hk a w1) as [F2 [tr2 [E2 W2]]]. split.
    + intros p Hp. now rewrite F2, F1.
    + exists (tr1 ++ tr2). split.
      * now rewrite E2, E1, app_assoc.
      * intros pd H. rewrite writes_app in H.
        apply elem_of_app in H as [H|H]; auto.
  - split; [assumption|]. exists tr1. auto.
Qed.

Lemma confined_print S (s : string) : confined S (print s).
Proof.
  intros w. split; [reflexivity|]. exists [Stdout s].
  split; [reflexivity|]. intros pd H. now apply elem_of_nil in H.
Qed.

Lemma confined_stderr S (s : string) : confined S (emit (Stderr s)).
Proof.
  intros w. split; [reflexivity|]. exists [Stderr s].
  split; [reflexivity|]. intros pd H. now apply elem_of_nil in H.
Qed.

Lemma confined_path_exists S (p : Path) : confined S (path_exists p).
Proof.
  intros w. split; [reflexivity|]. exists []. cbn.
  split; [now rewrite app_nil_r|]. intros pd H. now apply elem_of_nil in H.
Qed.

Lemma confined_Image_open S (p : Path) : confined S (Image_open p).
Proof.
  intros w. unfold Image_open.
  destruct (fs w !! p) as [d|]; [destruct (decode d)|]; cbn [snd];
    (split; [reflexivity|]; exists []; cbn;
     split; [now rewrite app_nil_r|]; intros pd H; now apply elem_of_nil in H).
Qed.

Lemma confined_write_file S (p : Path) (d : FileData) :
  p ∈ S -> confined S (write_file p d).
Proof.
  intros Hin w. unfold write_file. destruct (open_error p); cbn [snd fs events].
  - split; [reflexivity|]. exists []. cbn.
    split; [now rewrite app_nil_r|]. intros pd H. now apply elem_of_nil in H.
  - split.
    + intros q Hq. apply lookup_insert_ne. intros ->. contradiction.
    + exists [Wrote p d]. split; [reflexivity|].
      intros pd H. cbn in H. apply list_elem_of_singleton in H. now subst.
Qed.

Lemma confined_for_each {A} S (l : list A) (body : A -> Py unit) :
  (forall x, x ∈ l -> confined S (body x)) -> confined S (for_each l body).
Proof.
  induction l as [|x l IH]; intros H; cbn [for_each].
  - apply confined_ret.
  - apply confined_bind.
    + apply H. apply list_elem_of_here.
    + intros _. apply IH. intros y Hy. apply H. now apply list_elem_of_further.
Qed.

Lemma output_path_of_entry (entry : string * Z) :
  entry ∈ FAVICON_SIZES -> PUBLIC_DIR </> fst entry ∈ output_paths.
Proof.
  intros H. unfold output_paths, OUTPUT_NAMES.
  apply list_elem_of_fmap_2. apply elem_of_app. left.
  now apply list_elem_of_fmap_2.
Qed.

Lemma confined_emit_png (img_rgb : Image) (entry : string * Z) :
  entry ∈ FAVICON_SIZES -> confined output_paths (emit_png img_rgb entry).
Proof.
  intros H. unfold emit_png, save. apply confined_bind.
  - apply confined_write_file. now apply output_path_of_entry.
  - intros _. apply confined_print.
Qed.

Lemma confined_generate_favicons : confined output_paths generate_favicons.
Proof.
  unfold generate_favicons.
  apply confined_bind; [apply confined_path_exists|]. intros found.
  destruct found; cbv beta iota delta [negb].
  - apply confined_bind; [apply confined_print|]. intros _.
    apply confined_bind; [apply confined_Image_open|]. intros img. cbv zeta.
    apply confined_bind; [apply confined_print|]. intros _.
    apply confined_bind;
      [apply confined_for_each; intros x Hx; now apply confined_emit_png|].
    intros _.
    apply confined_bind; [apply confined_print|]. intros _.
    apply confined_bind;
      [apply confined_write_file; rewrite output_paths_unfold; in_list|].
    intros _.
    apply confined_bind; [apply confined_print|]. intros _.
    apply confined_bind; [apply confined_print|]. intros _.
    apply confined_bind;
      [apply confined_write_file; rewrite output_paths_unfold; in_list|].
    intros _.
    apply confined_bind; [apply confined_print|]. intros _.
    apply confined_bind; [apply confined_print|]. intros _.
    apply confined_ret.
  - apply confined_bind; [apply confined_print|]. intros _. apply confined_ret.
Qed.

(** ** Paths of the project *)

Lemma joinpath_inj (d : Path) (a b : string) : d </> a = d </> b -> a = b.
Proof. unfold joinpath. intros H. apply app_inv_head in H. congruence. Qed.

Lemma logo_not_output : LOGO_PATH ∉ output_paths.
Proof.
  rewrite output_paths_unfold. unfold LOGO_PATH. intros H.
  repeat (apply elem_of_cons in H as [H|H];
          [apply joinpath_inj in H; discriminate H|]).
  now apply elem_of_nil in H.
Qed.

Lemma app_dir_not_output (p : Path) : APP_DIR `prefix_of` p -> p ∉ output_paths.
Proof.
  intros [rest ->] H. rewrite output_paths_unfold in H.
  unfold APP_DIR, PUBLIC_DIR, joinpath in H.
  repeat (apply elem_of_cons in H as [H|H];
          [rewrite <- !app_assoc in H; apply app_inv_head in H; discriminate H|]).
  now apply elem_of_nil in H.
Qed.

(** ** The file system after a list of writes *)

Lemma write_all_snoc (ws : list (Path * FileData)) (pd : Path * FileData)
    (m : gmap Path FileData) :
  write_all (ws ++ [pd]) m = <[fst pd := snd pd]> (write_all ws m).
Proof. unfold write_all. now rewrite foldl_app. Qed.

Lemma last_write_snoc (p : Path) (ws : list (Path * FileData)) (pd : Path * FileData) :
  last_write p (ws ++ [pd])
  = if decide (fst pd = p) then Some (snd pd) else last_write p ws.
Proof. unfold last_write. now rewrite foldl_app. Qed.

Lemma write_all_lookup (ws : list (Path * FileData)) (m : gmap Path FileData)
    (p : Path) :
  write_all ws m !! p
  = match last_write p ws with Some d => Some d | None => m !! p end.
Proof.
  induction ws as [|pd ws IH] using rev_ind; [reflexivity|].
  rewrite write_all_snoc, last_write_snoc. destruct (decide (fst pd = p)) as [->|Hne].
  - apply lookup_insert_eq.
  - rewrite lookup_insert_ne by assumption. apply IH.
Qed.

(** Writing the same files again changes nothing. *)
Lemma write_all_idempotent (ws : list (Path * FileData)) (m : gmap Path FileData) :
  write_all ws (write_all ws m) = write_all ws m.
Proof.
  apply map_eq. intros p. rewrite !write_all_lookup.
  now destruct (last_write p ws).
Qed.

(** The seven files of a successful run. *)
Lemma last_write_success (im : Image) (name : string) :
  last_write (PUBLIC_DIR </> name) (success_writes im)
  = if decide (name = "site.webmanifest") then Some (Text manifest_content)
    else if decide (name = "favicon.ico") then Some (ico_file (alpha_variant im))
    else if decide (name = "android-chrome-512x512.png")
         then Some (png_file (opaque_variant im) 512)
    else if decide (name = "android-chrome-192x192.png")
         then Some (png_file (opaque_variant im) 192)
    else if decide (name = "apple-touch-icon.png")
         then Some (png_file (opaque_variant im) 180)
    else if decide (name = "favicon-32x32.png")
         then Some (png_file (opaque_variant im) 32)
    else if decide (name = "favicon-16x16.png")
         then Some (png_file (opaque_variant im) 16)
    else None.
Proof.
  unfold success_writes, FAVICON_SIZES, last_write.
  cbn [map app foldl fst snd].
  repeat match goal with
         | |- context [decide (PUBLIC_DIR </> ?a = PUBLIC_DIR </> name)] =>
             destruct (decide (PUBLIC_DIR </> a = PUBLIC_DIR </> name)) as [E|E];
             [apply joinpath_inj in E; subst name|
              assert (name <> a) by (intros ->; now apply E); clear E]
         end;
    repeat match goal with
           | |- context [decide (?a = ?b)] =>
               destruct (decide (a = b)); try congruence; try discriminate
           end.
Qed.

(** A run that returns [True], spelled out. *)
Lemma success_run (w : World) :
  fst (generate_favicons w) = Returned true ->
  exists d im tr,
    fs w !! LOGO_PATH = Some d /\ decode d = inr im
    /\ generate_favicons w
       = (Returned true,
          {| fs := write_all (success_writes im) (fs w); events := events w ++ tr |})
    /\ writes tr = success_writes im.
Proof.
  intros H. destruct (generate_favicons_true_inv w H) as (d & im & H1 & H2 & Hopen).
  destruct (generate_favicons_success w d im H1 H2 Hopen) as (tr & G & W).
  exists d, im, tr. auto.
Qed.

(** What each of the seven paths holds after the writes of a successful run. *)
Lemma success_files (im : Image) (m : gmap Path FileData) :
  Forall (fun entry =>
            write_all (success_writes im) m !! (PUBLIC_DIR </> fst entry)
            = Some (png_file (opaque_variant im) (snd entry)))
         FAVICON_SIZES
  /\ write_all (success_writes im) m !! (PUBLIC_DIR </> "favicon.ico")
     = Some (ico_file (alpha_variant im))
  /\ write_all (success_writes im) m !! (PUBLIC_DIR </> "site.webmanifest")
     = Some (Text manifest_content).
Proof.
  unfold FAVICON_SIZES.
  repeat first [ split | apply Forall_cons | apply Forall_nil ];
    cbn [fst snd]; rewrite write_all_lookup, last_write_success;
    repeat case_decide; first [ reflexivity | discriminate | congruence ].
Qed.

(** ** The exit status *)

Lemma script_main_exit_code (w : World) :
  fst (script_main w)
  = match fst (generate_favicons w) with Returned _ => 0 | Raised _ => 1 end.
Proof.
  unfold script_main. now destruct (generate_favicons w) as [[b|e] w'].
Qed.

(** An exception leaves the process with status 1. *)
Lemma exit_code_undecodable (w : World) d e :
  fs w !! LOGO_PATH = Some d -> decode d = inl e -> fst (script_main w) = 1.
Proof.
  intros H1 H2. rewrite script_main_exit_code.
  now rewrite (generate_favicons_undecodable w d e).
Qed.

(** A run that returns [True] leaves it with status 0. *)
Lemma exit_code_success (w : World) :
  fst (generate_favicons w) = Returned true -> fst (script_main w) = 0.
Proof. intros H. rewrite script_main_exit_code. now rewrite H. Qed.

(** So does a run that finds no source: the [False] it returns is dropped. *)
Lemma exit_code_missing (w : World) :
  fs w !! LOGO_PATH = None -> fst (script_main w) = 0.
Proof.
  intros H. rewrite script_main_exit_code.
  now rewrite (generate_favicons_missing w H).
Qed.

Lemma confined_script_main (w : World) :
  (forall p, p ∉ output_paths -> fs (snd (script_main w)) !! p = fs w !! p)
  /\ exists tr, events (snd (script_main w)) = events w ++ tr
                /\ forall pd, pd ∈ writes tr -> fst pd ∈ output_paths.
Proof.
  unfold script_main.
  pose proof (confined_generate_favicons w) as Hg.
  destruct (generate_favicons w) as [[b|e] w1]; cbn [snd] in *; [exact Hg|].
  destruct Hg as [F1 [tr1 [E1 W1]]].
  assert (Hr : confined output_paths
                 (print (nl +:+ "❌ Error: " +:+ exc_msg e) ;;; emit (Stderr (format_exc e)))).
  { apply confined_bind; [apply confined_print|]. intros _. apply confined_stderr. }
  destruct (Hr w1) as [F2 [tr2 [E2 W2]]]. split.
  - intros p Hp. now rewrite F2, F1.
  - exists (tr1 ++ tr2). split.
    + now rewrite E2, E1, app_assoc.
    + intros pd H. rewrite writes_app in H. apply elem_of_app in H as [H|H]; auto.
Qed.

(** ** The claims *)

(** C4: if the source image path does not exist, the procedure emits an
    error message, returns the failure indicator [False], performs no
    further step (the error line is the only event of the run) and writes
    no file: the file system is left as it was. *)
Theorem missing_source_reports_and_writes_nothing (w : World) :
  fs w !! LOGO_PATH = None ->
  fst (generate_favicons w) = Returned false
  /\ fs (snd (generate_favicons w)) = fs w
  /\ events (snd (generate_favicons w))
     = events w ++ [Stdout ("Error: " +:+ path_str LOGO_PATH +:+ " not found!")]
  /\ writes [Stdout ("Error: " +:+ path_str LOGO_PATH +:+ " not found!")] = [].
Proof.
  intros H. rewrite (generate_favicons_missing w H). cbn [fst snd fs events].
  repeat split.
Qed.

(** The three branches of the normalisation all convert. *)
Lemma ensure_rgba_unfold (im : Image) :
  ensure_rgba im = (if String.eqb (im_mode im) "RGBA" then im else convert im "RGBA").
Proof.
  unfold ensure_rgba. destruct (String.eqb (im_mode im) "RGBA"); cbn [negb].
  - reflexivity.
  - destruct (String.eqb (im_mode im) "P"); [reflexivity|].
    now destruct (String.eqb (im_mode im) "LA" || String.eqb (im_mode im) "L").
Qed.

Lemma ensure_rgba_mode (im : Image) : im_mode (ensure_rgba im) = "RGBA".
Proof.
  rewrite ensure_rgba_unfold. destruct (String.eqb (im_mode im) "RGBA") eqn:Q.
  - now apply String.eqb_eq.
  - reflexivity.
Qed.

(** C7: a decoded image whose mode is not ["RGBA"] is converted to
    ["RGBA"], whatever its mode (palette, greyscale, greyscale with alpha or
    any other), and one that is already ["RGBA"] is kept; after the
    normalisation the mode is always the four-band ["RGBA"]. *)
Theorem normalization_yields_rgba (im : Image) :
  im_mode (ensure_rgba im) = "RGBA"
  /\ bands_of_mode (im_mode (ensure_rgba im)) = 4%nat
  /\ ensure_rgba im = (if String.eqb (im_mode im) "RGBA" then im else convert im "RGBA")
  /\ im_size (ensure_rgba im) = im_size im.
Proof.
  split; [apply ensure_rgba_mode|].
  split; [now rewrite ensure_rgba_mode|].
  split; [apply ensure_rgba_unfold|].
  rewrite ensure_rgba_unfold. now destruct (String.eqb (im_mode im) "RGBA").
Qed.

(** C9: the image resized for [favicon.ico] is already in mode ["RGBA"]
    when the test of line 72 is reached (the alpha variant is a copy of the
    normalised image and resizing keeps the mode), so the test is false and
    the conversion it guards is never run. *)
Theorem ico_recheck_never_converts (im : Image) :
  alpha_variant im = ensure_rgba im
  /\ im_mode (resize_ico (alpha_variant im)) = "RGBA"
  /\ ico_needs_convert (resize_ico (alpha_variant im)) = false
  /\ recheck_ico (resize_ico (alpha_variant im)) = resize_ico (alpha_variant im).
Proof.
  assert (R : im_mode (resize_ico (alpha_variant im)) = "RGBA")
    by exact (ensure_rgba_mode im).
  assert (N : ico_needs_convert (resize_ico (alpha_variant im)) = false).
  { unfold ico_needs_convert. rewrite R. reflexivity. }
  repeat split; try assumption.
  unfold recheck_ico. now rewrite N.
Qed.

(** C2, as amended: on every successful run, whatever the source image
    holds, [site.webmanifest] in the output directory holds exactly the
    text of lines 86 to 107 of the script, and writing it is the last write
    of the run. *)
Theorem manifest_written_verbatim (w : World) :
  fst (generate_favicons w) = Returned true ->
  fs (snd (generate_favicons w)) !! (PUBLIC_DIR </> "site.webmanifest")
  = Some (Text manifest_content)
  /\ exists tr,
       events (snd (generate_favicons w)) = events w ++ tr
       /\ last (writes tr) = Some (PUBLIC_DIR </> "site.webmanifest", Text manifest_content).
Proof.
  intros H. destruct (success_run w H) as (d & im & tr & H1 & H2 & G & W).
  rewrite G. cbn [snd fs events]. split.
  - apply success_files.
  - exists tr. split; [reflexivity|]. rewrite W. reflexivity.
Qed.

(** C6: on a successful run the first five writes are, in the order of
    the table, the opaque variant resized to (size, size) and saved as PNG
    under the file name of the entry in the output directory; the files
    are there afterwards, each image has exactly the size of its entry, and
    the table is the five entries 16, 32, 180, 192 and 512 under the names
    of the specification. *)
Theorem png_favicons_follow_the_table (w : World) :
  fst (generate_favicons w) = Returned true ->
  exists d im tr,
    fs w !! LOGO_PATH = Some d /\ decode d = inr im
    /\ events (snd (generate_favicons w)) = events w ++ tr
    /\ take 5 (writes tr)
       = map (fun entry =>
                (PUBLIC_DIR </> fst entry,
                 Encoded "PNG"
                   (resize (opaque_variant im) (snd entry, snd entry) LANCZOS)
                   [("optimize", true)]))
             FAVICON_SIZES
    /\ Forall (fun entry =>
                 fs (snd (generate_favicons w)) !! (PUBLIC_DIR </> fst entry)
                 = Some (Encoded "PNG"
                           (resize (opaque_variant im) (snd entry, snd entry) LANCZOS)
                           [("optimize", true)])
                 /\ im_size (resize (opaque_variant im) (snd entry, snd entry) LANCZOS)
                    = (snd entry, snd entry))
              FAVICON_SIZES
    /\ FAVICON_SIZES
       = [ ("favicon-16x16.png", 16); ("favicon-32x32.png", 32);
           ("apple-touch-icon.png", 180); ("android-chrome-192x192.png", 192);
           ("android-chrome-512x512.png", 512) ].
Proof.
  intros H. destruct (success_run w H) as (d & im & tr & H1 & H2 & G & W).
  exists d, im, tr. rewrite G. cbn [snd fs events].
  split; [exact H1|]. split; [exact H2|]. split; [reflexivity|].
  split; [rewrite W; reflexivity|]. split; [|reflexivity].
  destruct (success_files im (fs w)) as [F _].
  eapply Forall_impl; [exact F|]. intros entry E. cbn beta in E.
  split; [exact E|reflexivity].
Qed.

(** C10: in every run, failed or not, no path other than the seven fixed
    ones under the public directory is created, changed or removed, every
    write of the run goes to one of the seven, and nothing under the app
    directory is touched. *)
Theorem only_the_seven_outputs_are_written (w : World) :
  (forall p, p ∉ output_paths -> fs (snd (script_main w)) !! p = fs w !! p)
  /\ (exists tr, events (snd (script_main w)) = events w ++ tr
                 /\ forall pd, pd ∈ writes tr -> fst pd ∈ output_paths)
  /\ (forall p, APP_DIR `prefix_of` p -> fs (snd (script_main w)) !! p = fs w !! p)
  /\ output_paths
     = map (joinpath PUBLIC_DIR)
           [ "favicon-16x16.png"; "favicon-32x32.png"; "apple-touch-icon.png";
             "android-chrome-192x192.png"; "android-chrome-512x512.png";
             "favicon.ico"; "site.webmanifest" ].
Proof.
  destruct (confined_script_main w) as [F T].
  split; [exact F|]. split; [exact T|]. split; [|reflexivity].
  intros p Hp. apply F. now apply app_dir_not_output.
Qed.

(** C8: after a successful run a second run on the result succeeds too,
    leaves the file system exactly as the first run left it, and performs
    the same writes with the same contents. *)
Theorem second_run_changes_nothing (w : World) :
  fst (generate_favicons w) = Returned true ->
  fst (generate_favicons (snd (generate_favicons w))) = Returned true
  /\ fs (snd (generate_favicons (snd (generate_favicons w))))
     = fs (snd (generate_favicons w))
  /\ exists tr1 tr2,
       events (snd (generate_favicons w)) = events w ++ tr1
       /\ events (snd (generate_favicons (snd (generate_favicons w))))
          = events (snd (generate_favicons w)) ++ tr2
       /\ writes tr2 = writes tr1.
Proof.
  intros H. destruct (success_run w H) as (d & im & tr1 & H1 & H2 & G & W1).
  destruct (generate_favicons_true_inv w H) as (d' & im' & _ & _ & Hopen).
  rewrite G. cbn [snd].
  set (w1 := {| fs := write_all (success_writes im) (fs w); events := events w ++ tr1 |}).
  assert (L : fs w1 !! LOGO_PATH = Some d).
  { pose proof (confined_generate_favicons w) as [F _]. rewrite G in F.
    cbn [snd] in F. fold w1 in F. rewrite F; [exact H1|apply logo_not_output]. }
  destruct (generate_favicons_success w1 d im L H2 Hopen) as (tr2 & G2 & W2).
  rewrite G2. cbn [fst snd fs events]. split; [reflexivity|].
  split; [apply write_all_idempotent|].
  exists tr1, tr2. split; [reflexivity|]. split; [reflexivity|]. congruence.
Qed.

(** ** Compositing *)

(** The matte of an ["RGBA"] image is its fourth band. *)
Lemma alpha_band (src : Image) :
  im_mode src = "RGBA" -> List.last (split src) src = getchannel 3 src.
Proof. intros M. unfold split. rewrite M. reflexivity. Qed.

(** An ["RGBA"] image is pasted on an ["RGB"] canvas as it is. *)
Lemma paste_rgba_on_rgb (base src mask : Image) :
  im_mode base = "RGB" -> im_mode src = "RGBA" ->
  paste base src mask
  = {| im_mode := "RGB";
       im_size := im_size base;
       im_data := zip_with (fun oi m => paste_pixel (fst oi) (snd oi) m)
                           (zip (im_data base) (im_data src)) (im_data mask) |}.
Proof. intros B M. unfold paste. rewrite B, M. reflexivity. Qed.

(** One pixel of the opaque variant of an ["RGBA"] image. *)
Lemma make_img_rgb_pixel (src : Image) (i : nat) (r g b a : Z) :
  im_mode src = "RGBA" ->
  im_data src !! i = Some [r; g; b; a] ->
  (i < Z.to_nat (fst (im_size src) * snd (im_size src)))%nat ->
  im_data (make_img_rgb src) !! i = Some [BLEND a 6 r; BLEND a 57 g; BLEND a 64 b].
Proof.
  intros M D I. unfold make_img_rgb.
  rewrite alpha_band, paste_rgba_on_rgb by (assumption || reflexivity).
  cbn [im_data Image_new getchannel].
  rewrite lookup_zip_with, lookup_zip_with.
  rewrite lookup_replicate_2 by exact I.
  change (map (fun p : Pixel => [nth 3 p 0]) (im_data src))
    with ((fun p : Pixel => [nth 3 p 0]) <$> im_data src).
  rewrite list_lookup_fmap, D. reflexivity.
Qed.

(** C5: the opaque variant is an ["RGB"] image of the dimensions of the
    normalised source; at every pixel it blends the background colour
    (6, 57, 64) with the source colour, weighted by the source alpha: the
    source colour where alpha is 255, the background where alpha is 0, and
    in between the linear interpolation rounded to the nearest integer. *)
Theorem opaque_variant_composites_over_background
    (im : Image) (i : nat) (r g b a : Z) :
  im_data (ensure_rgba im) !! i = Some [r; g; b; a] ->
  (i < Z.to_nat (fst (im_size (ensure_rgba im)) * snd (im_size (ensure_rgba im))))%nat ->
  0 <= r <= 255 -> 0 <= g <= 255 -> 0 <= b <= 255 -> 0 <= a <= 255 ->
  take 3 background_color_rgba = [6; 57; 64]
  /\ im_mode (opaque_variant im) = "RGB"
  /\ im_size (opaque_variant im) = im_size (ensure_rgba im)
  /\ im_data (opaque_variant im) !! i = Some [BLEND a 6 r; BLEND a 57 g; BLEND a 64 b]
  /\ (a = 255 -> im_data (opaque_variant im) !! i = Some [r; g; b])
  /\ (a = 0 -> im_data (opaque_variant im) !! i = Some [6; 57; 64])
  /\ Z.abs (255 * BLEND a 6 r - (6 * (255 - a) + r * a)) <= 127
  /\ Z.abs (255 * BLEND a 57 g - (57 * (255 - a) + g * a)) <= 127
  /\ Z.abs (255 * BLEND a 64 b - (64 * (255 - a) + b * a)) <= 127.
Proof.
  intros D I Hr Hg Hb Ha.
  pose proof (ensure_rgba_mode im) as M.
  pose proof (make_img_rgb_pixel (ensure_rgba im) i r g b a M D I) as P.
  assert (Q : make_img_rgb (ensure_rgba im)
              = paste (Image_new "RGB" (im_size (ensure_rgba im)) [6; 57; 64])
                      (ensure_rgba im) (getchannel 3 (ensure_rgba im))).
  { unfold make_img_rgb. now rewrite alpha_band. }
  unfold opaque_variant.
  split; [reflexivity|].
  split; [rewrite Q, paste_rgba_on_rgb by (assumption || reflexivity); reflexivity|].
  split; [rewrite Q, paste_rgba_on_rgb by (assumption || reflexivity); reflexivity|].
  split; [exact P|].
  split; [intros ->; rewrite P, !BLEND_opaque by assumption; reflexivity|].
  split; [intros ->; rewrite P, !BLEND_transparent by (split; discriminate);
          reflexivity|].
  repeat split; apply BLEND_linear; first [assumption | split; discriminate].
Qed.

(** ** The legacy icon *)

(** The image saved as [favicon.ico] is 32 by 32 and ["RGBA"]. *)
Lemma ico_image_shape (im : Image) :
  im_size (recheck_ico (resize_ico (alpha_variant im))) = (32, 32)
  /\ im_mode (recheck_ico (resize_ico (alpha_variant im))) = "RGBA".
Proof.
  unfold recheck_ico.
  destruct (ico_needs_convert (resize_ico (alpha_variant im))) eqn:N.
  - split; reflexivity.
  - split; [reflexivity|]. unfold ico_needs_convert in N.
    apply negb_false_iff in N. now apply String.eqb_eq.
Qed.

(** Saved without a [sizes] argument, it is embedded at the three default
    sizes that fit in 32 by 32. *)
Lemma ico_file_embedded_sizes (im : Image) :
  embedded_sizes (ico_file (alpha_variant im)) = [(16, 16); (24, 24); (32, 32)].
Proof.
  unfold ico_file, embedded_sizes. cbn [String.eqb Ascii.eqb Bool.eqb].
  unfold ico_frame_sizes, ico_size_fits.
  destruct (ico_image_shape im) as [-> _]. reflexivity.
Qed.

(** ** When a run succeeds, fails or raises *)

(** Either every path of a list can be opened, or one of them cannot. *)
Lemma open_errors_cases (l : list Path) :
  (forall p, p ∈ l -> open_error p = None)
  \/ exists p e, p ∈ l /\ open_error p = Some e.
Proof.
  induction l as [|a l IH].
  - left. intros p H. now apply elem_of_nil in H.
  - destruct (open_error a) as [e|] eqn:E.
    + right. exists a, e. split; [apply list_elem_of_here|exact E].
    + destruct IH as [IH|(p & e & Hp & He)].
      * left. intros p Hp. apply elem_of_cons in Hp as [->|Hp]; auto.
      * right. exists p, e. split; [now apply list_elem_of_further|exact He].
Qed.

(** Once the source is found, [False] is out of reach. *)
Lemma present_never_false (w : World) d :
  fs w !! LOGO_PATH = Some d -> fst (generate_favicons w) <> Returned false.
Proof.
  intros H1. destruct (generate_favicons w) as [o w'] eqn:G. cbn [fst]. intros ->.
  destruct w as [m ev]. cbn [fs] in H1. unfold generate_favicons in G.
  rewrite run_exists in G. cbn [fs] in G. rewrite H1 in G.
  cbv [negb bind print emit ret save write_text write_file Image_open for_each
       FAVICON_SIZES emit_png fst snd fs events] in G.
  rewrite H1 in G. destruct (decode d) as [e|im]; [discriminate G|].
  case_open "favicon-16x16.png" G.
  case_open "favicon-32x32.png" G.
  case_open "apple-touch-icon.png" G.
  case_open "android-chrome-192x192.png" G.
  case_open "android-chrome-512x512.png" G.
  case_open "favicon.ico" G.
  case_open "site.webmanifest" G.
  discriminate G.
Qed.

(** X1: [generate_favicons] returns [True] exactly when the source file
    exists, decodes, and each of the seven output paths can be opened for
    writing. *)
Theorem returns_true_iff (w : World) :
  fst (generate_favicons w) = Returned true
  <-> exists d im,
        fs w !! LOGO_PATH = Some d /\ decode d = inr im
        /\ forall p, p ∈ output_paths -> open_error p = None.
Proof.
  split.
  - apply generate_favicons_true_inv.
  - intros (d & im & H1 & H2 & Hopen).
    destruct (generate_favicons_success w d im H1 H2 Hopen) as (tr & G & _).
    now rewrite G.
Qed.

(** X2: [generate_favicons] returns [False] exactly when the source file
    is missing; every other failure is an exception, never [False]. *)
Theorem returns_false_iff_source_missing (w : World) :
  fst (generate_favicons w) = Returned false <-> fs w !! LOGO_PATH = None.
Proof.
  split.
  - intros H. destruct (fs w !! LOGO_PATH) as [d|] eqn:L; [|reflexivity].
    exfalso. exact (present_never_false w d L H).
  - intros H. now rewrite (generate_favicons_missing w H).
Qed.

(** X3: the exit status is 0 or 1, and it is 1 exactly when the source
    file exists and either does not decode or some output path cannot be
    opened for writing. *)
Theorem exit_status_one_iff (w : World) :
  (fst (script_main w) = 0 \/ fst (script_main w) = 1)
  /\ (fst (script_main w) = 1
      <-> exists d,
            fs w !! LOGO_PATH = Some d
            /\ ((exists e, decode d = inl e)
                \/ exists p e, p ∈ output_paths /\ open_error p = Some e)).
Proof.
  rewrite script_main_exit_code. split.
  { destruct (fst (generate_favicons w)); auto. }
  split.
  - destruct (fst (generate_favicons w)) as [b|e] eqn:G; [discriminate|]. intros _.
    destruct (fs w !! LOGO_PATH) as [d|] eqn:L.
    + exists d. split; [reflexivity|].
      destruct (decode d) as [e'|im] eqn:D; [left; eauto|]. right.
      destruct (open_errors_cases output_paths) as [All|Ex]; [|exact Ex].
      destruct (generate_favicons_success w d im L D All) as (tr & G' & _).
      rewrite G' in G. discriminate G.
    + rewrite (generate_favicons_missing w L) in G. discriminate G.
  - intros (d & L & [(e & D)|(p & e & Hp & He)]).
    + now rewrite (generate_favicons_undecodable w d e L D).
    + destruct (fst (generate_favicons w)) as [[|]|e'] eqn:G; [| |reflexivity].
      * destruct (generate_favicons_true_inv w G) as (_ & _ & _ & _ & All).
        rewrite (All p Hp) in He. discriminate He.
      * exfalso. exact (present_never_false w d L G).
Qed.

(** X4: a source file that does not decode stops the process before any
    write: exit status 1, the file system as it was, and three events, the
    loading line, the error line and the traceback. *)
Theorem undecodable_source_stops_before_any_write (w : World) d e :
  fs w !! LOGO_PATH = Some d -> decode d = inl e ->
  script_main w
  = (1, {| fs := fs w;
           events := events w
                     ++ [ Stdout ("Loading source image: " +:+ path_str LOGO_PATH);
                          Stdout (nl +:+ "❌ Error: " +:+ exc_msg e);
                          Stderr (format_exc e) ] |}).
Proof.
  intros H1 H2. unfold script_main.
  rewrite (generate_favicons_undecodable w d e H1 H2).
  unfold bind, print, emit. cbn [snd fs events].
  now rewrite <- !app_assoc.
Qed.

(** X5: no run, failed or not, changes the source file. *)
Theorem source_is_never_modified (w : World) :
  fs (snd (script_main w)) !! LOGO_PATH = fs w !! LOGO_PATH.
Proof.
  destruct (confined_script_main w) as [F _]. apply F. apply logo_not_output.
Qed.

(** X6: when the source decodes and the output at position [k] is the
    first that cannot be opened, the run raises the error of that open, the
    [k] files before it stay written, with the contents of a successful
    run, and nothing is rolled back. *)
Theorem failed_write_keeps_earlier_files (w : World) d im (k : nat) (p : Path) e :
  fs w !! LOGO_PATH = Some d -> decode d = inr im ->
  output_paths !! k = Some p -> open_error p = Some e ->
  Forall (fun q => open_error q = None) (take k output_paths) ->
  exists tr,
    generate_favicons w
    = (Raised e,
       {| fs := write_all (take k (success_writes im)) (fs w);
          events := events w ++ tr |})
    /\ writes tr = take k (success_writes im).
Proof.
  intros H1 H2 Hk He Hprev. rewrite output_paths_unfold in Hk, Hprev.
  destruct w as [m ev]. cbn [fs events] in *.
  unfold generate_favicons. rewrite run_exists. cbn [fs]. rewrite H1.
  cbv [negb bind print emit ret save write_text write_file Image_open for_each
       FAVICON_SIZES emit_png fst snd fs events].
  rewrite H1, H2.
  do 7 (destruct k as [|k];
        [ cbn [lookup list_lookup] in Hk; injection Hk as <-;
          cbn [take] in Hprev;
          repeat (apply Forall_cons in Hprev as [?O Hprev]);
          repeat match goal with
                 | O : open_error _ = None |- _ => rewrite O; clear O
                 end;
          rewrite He; cbv beta iota; rewrite <- ?app_assoc;
          eexists; split; reflexivity
        | ]).
  cbn [lookup list_lookup] in Hk. discriminate Hk.
Qed.

(** ** The trace accounts for the file system *)

Lemma write_all_app (ws1 ws2 : list (Path * FileData)) (m : gmap Path FileData) :
  write_all (ws1 ++ ws2) m = write_all ws2 (write_all ws1 m).
Proof. unfold write_all. apply foldl_app. Qed.

Lemma dom_write_all (ws : list (Path * FileData)) (m : gmap Path FileData) :
  dom (write_all ws m) = dom m ∪ list_to_set (map fst ws).
Proof.
  induction ws as [|pd ws IH] using rev_ind.
  - cbn. now rewrite union_empty_r_L.
  - rewrite write_all_snoc, dom_insert_L, IH, map_app, list_to_set_app_L.
    cbn. rewrite union_empty_r_L, (union_comm_L {[fst pd]}). now rewrite union_assoc_L.
Qed.

(** A computation replays when the file system it leaves is the one it
    found, updated by the writes of its trace in order. *)
Definition replays {A} (c : Py A) : Prop :=
  forall w, exists tr,
    events (snd (c w)) = events w ++ tr
    /\ fs (snd (c w)) = write_all (writes tr) (fs w).

Lemma replays_silent {A} (c : Py A) :
  (forall w, snd (c w) = w) -> replays c.
Proof.
  intros H w. exists []. rewrite H. split; [now rewrite app_nil_r|reflexivity].
Qed.

Lemma replays_bind {A B} (c : Py A) (k : A -> Py B) :
  replays c -> (forall a, replays (k a)) -> replays (bind c k).
Proof.
  intros Hc Hk w. unfold bind. destruct (Hc w) as (tr1 & E1 & F1).
  destruct (c w) as [[a|e] w1]; cbn [snd] in *.
  - destruct (Hk a w1) as (tr2 & E2 & F2). exists (tr1 ++ tr2). split.
    + now rewrite E2, E1, app_assoc.
    + now rewrite F2, F1, writes_app, write_all_app.
  - exists tr1. auto.
Qed.

Lemma replays_emit_line (ev : Event) :
  writes [ev] = [] -> replays (emit ev).
Proof.
  intros H w. exists [ev]. split; [reflexivity|]. now rewrite H.
Qed.

Lemma replays_write_file (p : Path) (d : FileData) : replays (write_file p d).
Proof.
  intros w. unfold write_file. destruct (open_error p); cbn [snd fs events].
  - exists []. split; [now rewrite app_nil_r|reflexivity].
  - exists [Wrote p d]. split; reflexivity.
Qed.

Lemma replays_for_each {A} (l : list A) (body : A -> Py unit) :
  (forall x, replays (body x)) -> replays (for_each l body).
Proof.
  intros H. induction l as [|x l IH]; cbn [for_each].
  - now apply replays_silent.
  - apply replays_bind; [apply H|]. intros _. exact IH.
Qed.

Lemma replays_Image_open (p : Path) : replays (Image_open p).
Proof.
  apply replays_silent. intros w. unfold Image_open.
  destruct (fs w !! p) as [d|]; [destruct (decode d)|]; reflexivity.
Qed.

Lemma replays_generate_favicons : replays generate_favicons.
Proof.
  assert (P : forall s, replays (print s)) by (intros s; now apply replays_emit_line).
  unfold generate_favicons.
  apply replays_bind; [now apply replays_silent|]. intros found.
  destruct found; cbv beta iota delta [negb].
  - apply replays_bind; [apply P|]. intros _.
    apply replays_bind; [apply replays_Image_open|]. intros img. cbv zeta.
    apply replays_bind; [apply P|]. intros _.
    apply replays_bind.
    { apply replays_for_each. intros x. unfold emit_png, save.
      apply replays_bind; [apply replays_write_file|]. intros _. apply P. }
    intros _.
    apply replays_bind; [apply P|]. intros _.
    apply replays_bind; [apply replays_write_file|]. intros _.
    apply replays_bind; [apply P|]. intros _.
    apply replays_bind; [apply P|]. intros _.
    apply replays_bind; [apply replays_write_file|]. intros _.
    apply replays_bind; [apply P|]. intros _.
    apply replays_bind; [apply P|]. intros _.
    now apply replays_silent.
  - apply replays_bind; [apply P|]. intros _. now apply replays_silent.
Qed.

(** X7: in every run, failed or not, the file system at the end is the
    one at the start updated by the writes of the trace, in order; so no
    file that was there is ever removed. *)
Theorem file_system_replays_the_writes (w : World) :
  exists tr,
    events (snd (script_main w)) = events w ++ tr
    /\ fs (snd (script_main w)) = write_all (writes tr) (fs w)
    /\ dom (fs w) ⊆ dom (fs (snd (script_main w))).
Proof.
  assert (R : exists tr,
             events (snd (script_main w)) = events w ++ tr
             /\ fs (snd (script_main w)) = write_all (writes tr) (fs w)).
  { unfold script_main. destruct (replays_generate_favicons w) as (tr1 & E1 & F1).
    destruct (generate_favicons w) as [[b|e] w1]; cbn [snd] in *.
    - exists tr1. auto.
    - exists (tr1 ++ [Stdout (nl +:+ "❌ Error: " +:+ exc_msg e); Stderr (format_exc e)]).
      unfold bind, print, emit. cbn [snd fs events]. split.
      + now rewrite E1, <- !app_assoc.
      + rewrite F1, writes_app. cbn. now rewrite app_nil_r. }
  destruct R as (tr & E & F). exists tr. split; [exact E|]. split; [exact F|].
  rewrite F, dom_write_all. apply union_subseteq_l.
Qed.

(** ** Completeness and independence of earlier outputs *)

Lemma output_paths_NoDup : NoDup output_paths.
Proof.
  unfold output_paths. apply NoDup_fmap_2.
  - intros a b. apply joinpath_inj.
  - unfold OUTPUT_NAMES, FAVICON_SIZES. cbn [map fst app].
    repeat (apply NoDup_cons; split;
            [intros H; repeat (apply elem_of_cons in H as [H|H]; [discriminate H|]);
             now apply elem_of_nil in H|]).
    apply NoDup_nil_2.
Qed.

Lemma success_writes_paths (im : Image) : map fst (success_writes im) = output_paths.
Proof. reflexivity. Qed.

(** X8: a successful run performs exactly seven writes, to the seven
    pairwise distinct output paths in their order (five PNG, the icon, the
    manifest); afterwards each of them exists, and the files of the project
    are those that were there before and these seven. *)
Theorem success_writes_exactly_the_seven (w : World) :
  fst (generate_favicons w) = Returned true ->
  exists tr,
    events (snd (generate_favicons w)) = events w ++ tr
    /\ map fst (writes tr) = output_paths
    /\ length (writes tr) = 7%nat
    /\ NoDup output_paths
    /\ (forall p, p ∈ output_paths -> is_Some (fs (snd (generate_favicons w)) !! p))
    /\ dom (fs (snd (generate_favicons w))) = dom (fs w) ∪ list_to_set output_paths.
Proof.
  intros H. destruct (success_run w H) as (d & im & tr & _ & _ & G & W).
  exists tr. rewrite G. cbn [snd fs events].
  assert (D : dom (write_all (success_writes im) (fs w))
              = dom (fs w) ∪ list_to_set output_paths).
  { now rewrite dom_write_all, success_writes_paths. }
  split; [reflexivity|]. split; [now rewrite W|]. split; [now rewrite W|].
  split; [apply output_paths_NoDup|]. split; [|exact D].
  intros p Hp. apply elem_of_dom. rewrite D. apply elem_of_union. right.
  now apply elem_of_list_to_set.
Qed.

Lemma last_write_is_Some (p : Path) (ws : list (Path * FileData)) :
  p ∈ map fst ws -> is_Some (last_write p ws).
Proof.
  induction ws as [|pd ws IH] using rev_ind; intros H.
  - now apply elem_of_nil in H.
  - rewrite last_write_snoc. destruct (decide (fst pd = p)) as [E|E]; [eauto|].
    apply IH. rewrite map_app in H. apply elem_of_app in H as [H|H]; [exact H|].
    cbn in H. apply list_elem_of_singleton in H. congruence.
Qed.

(** X9: what a successful run leaves at the seven output paths depends
    on the source file alone: starting from two projects with the same
    source, whatever else they hold (stale or partial outputs included),
    both runs succeed and the seven files are the same. *)
Theorem outputs_depend_on_the_source_alone (w1 w2 : World) :
  fs w1 !! LOGO_PATH = fs w2 !! LOGO_PATH ->
  fst (generate_favicons w1) = Returned true ->
  fst (generate_favicons w2) = Returned true
  /\ forall p, p ∈ output_paths ->
       fs (snd (generate_favicons w1)) !! p = fs (snd (generate_favicons w2)) !! p.
Proof.
  intros L H. destruct (success_run w1 H) as (d & im & tr1 & H1 & H2 & G1 & _).
  destruct (generate_favicons_true_inv w1 H) as (_ & _ & _ & _ & Hopen).
  rewrite H1 in L. symmetry in L.
  destruct (generate_favicons_success w2 d im L H2 Hopen) as (tr2 & G2 & _).
  rewrite G1, G2. cbn [fst snd fs]. split; [reflexivity|].
  intros p Hp. rewrite !write_all_lookup.
  destruct (last_write_is_Some p (success_writes im)) as [x ->]; [|reflexivity].
  now rewrite success_writes_paths.
Qed.

(** X10: normalising twice is normalising once, so the two variants of a
    normalised image are those of the image. *)
Theorem ensure_rgba_idempotent (im : Image) :
  ensure_rgba (ensure_rgba im) = ensure_rgba im
  /\ opaque_variant (ensure_rgba im) = opaque_variant im
  /\ alpha_variant (ensure_rgba im) = alpha_variant im.
Proof.
  assert (E : ensure_rgba (ensure_rgba im) = ensure_rgba im).
  { rewrite (ensure_rgba_unfold (ensure_rgba im)), ensure_rgba_mode. reflexivity. }
  unfold opaque_variant, alpha_variant. now rewrite E.
Qed.

End Script.

(** ** The script on concrete inputs *)

(** A project that holds a logo and nothing else. *)
Definition sample_world : World :=
  {| fs := {[ LOGO_PATH sample_script_file := sample_logo_file ]}; events := [] |}.

(** The script in the sample environment. *)
Definition sample_generate_favicons : Py bool :=
  generate_favicons sample_script_file sample_decode sample_convert_data
                    sample_resample sample_open_error.

Definition sample_main (w : World) : Z * World :=
  script_main sample_script_file sample_decode sample_convert_data
              sample_resample sample_open_error sample_format_exc w.

Definition SAMPLE_PUBLIC_DIR : Path := PUBLIC_DIR sample_script_file.

(** In the sample environment the run on the sample project returns [True]. *)
Lemma sample_run_succeeds :
  fst (sample_generate_favicons sample_world) = Returned true.
Proof.
  unfold sample_generate_favicons.
  destruct (generate_favicons_success sample_script_file sample_decode
              sample_convert_data sample_resample sample_open_error
              sample_world sample_logo_file sample_logo) as (tr & G & _).
  - apply lookup_singleton_eq.
  - reflexivity.
  - intros p _. reflexivity.
  - now rewrite G.
Qed.

Lemma sample_logo_missing :
  fs empty_world !! LOGO_PATH sample_script_file = None.
Proof. apply lookup_empty. Qed.

Lemma manifest_content_length :
  String.length manifest_content = 482%nat /\ String.length spec_manifest = 434%nat.
Proof. split; vm_compute; reflexivity. Qed.

Lemma manifest_content_not_spec : manifest_content <> spec_manifest.
Proof.
  intros E. destruct manifest_content_length as [L1 L2].
  rewrite E, L2 in L1. discriminate L1.
Qed.

(** C1: with no [public/logo.png], [generate_favicons] returns [False]
    and the process still ends with exit status 0, where the claim asks
    for a status other than 0. *)
Theorem missing_source_exits_with_status_zero :
  fs empty_world !! LOGO_PATH sample_script_file = None
  /\ fst (sample_generate_favicons empty_world) = Returned false
  /\ fst (sample_main empty_world) = 0.
Proof.
  split; [exact sample_logo_missing|]. split.
  - unfold sample_generate_favicons.
    now rewrite (generate_favicons_missing _ _ _ _ _ empty_world sample_logo_missing).
  - unfold sample_main. apply exit_code_missing. exact sample_logo_missing.
Qed.

(** C2, as stated, fails: after a successful run [site.webmanifest] does
    not hold the document printed in section 6 of the specification, whose
    icon entries stand on one line each. *)
Lemma manifest_differs_from_spec_document :
  fst (sample_generate_favicons sample_world) = Returned true
  /\ fs (snd (sample_generate_favicons sample_world))
       !! (SAMPLE_PUBLIC_DIR </> "site.webmanifest")
     <> Some (Text spec_manifest).
Proof.
  split; [exact sample_run_succeeds|].
  destruct (success_run _ _ _ _ _ sample_world sample_run_succeeds)
    as (d & im & tr & _ & _ & G & _).
  unfold sample_generate_favicons. rewrite G. cbn [snd fs].
  destruct (success_files sample_script_file sample_convert_data sample_resample
              im (fs sample_world)) as (_ & _ & M).
  unfold SAMPLE_PUBLIC_DIR. rewrite M. intros E.
  apply manifest_content_not_spec. congruence.
Qed.

(** The manifest of the sample project after a run. *)
Lemma manifest_written_verbatim_witness :
  fst (sample_generate_favicons sample_world) = Returned true
  /\ fs (snd (sample_generate_favicons sample_world))
       !! (SAMPLE_PUBLIC_DIR </> "site.webmanifest")
     = Some (Text manifest_content).
Proof.
  split; [exact sample_run_succeeds|].
  exact (proj1 (manifest_written_verbatim _ _ _ _ _ sample_world sample_run_succeeds)).
Defined.

(** C3: the file saved as [favicon.ico] is the alpha variant resized to
    32 by 32 in mode ["RGBA"], but the ICO writer, called without [sizes],
    embeds it at 16, 24 and 32 pixels: three images where the claim and the
    comments of lines 66 and 80 ask for one. *)
Theorem favicon_ico_embeds_three_images :
  fst (sample_generate_favicons sample_world) = Returned true
  /\ exists ico_img,
       fs (snd (sample_generate_favicons sample_world))
         !! (SAMPLE_PUBLIC_DIR </> "favicon.ico")
       = Some (Encoded "ICO" ico_img [])
       /\ ico_img = resize sample_resample
                      (alpha_variant sample_convert_data sample_logo) (32, 32) LANCZOS
       /\ im_size ico_img = (32, 32)
       /\ im_mode ico_img = "RGBA"
       /\ embedded_sizes (Encoded "ICO" ico_img []) = [(16, 16); (24, 24); (32, 32)].
Proof.
  split; [exact sample_run_succeeds|].
  destruct (generate_favicons_success sample_script_file sample_decode
              sample_convert_data sample_resample sample_open_error
              sample_world sample_logo_file sample_logo) as (tr & G & _);
    [apply lookup_singleton_eq | reflexivity | intros p _; reflexivity |].
  unfold sample_generate_favicons. rewrite G. cbn [snd fs].
  destruct (success_files sample_script_file sample_convert_data sample_resample
              sample_logo (fs sample_world)) as (_ & I & _).
  eexists. split; [exact I|].
  split; [reflexivity|]. split; [reflexivity|]. split; [reflexivity|].
  apply (ico_file_embedded_sizes sample_convert_data sample_resample sample_logo).
Qed.

(** The empty project: nothing found, nothing written. *)
Lemma missing_source_witness :
  fs empty_world !! LOGO_PATH sample_script_file = None
  /\ fst (sample_generate_favicons empty_world) = Returned false
  /\ fs (snd (sample_generate_favicons empty_world)) = fs empty_world.
Proof.
  split; [exact sample_logo_missing|].
  pose proof (missing_source_reports_and_writes_nothing
                sample_script_file sample_decode sample_convert_data sample_resample
                sample_open_error empty_world sample_logo_missing) as (R & F & _).
  split; [exact R|exact F].
Defined.

(** The five PNG files of the sample project, in the order of the table. *)
Lemma png_favicons_witness :
  fst (sample_generate_favicons sample_world) = Returned true
  /\ exists tr,
       events (snd (sample_generate_favicons sample_world))
       = events sample_world ++ tr
       /\ map fst (take 5 (writes tr))
          = map (fun entry => SAMPLE_PUBLIC_DIR </> fst entry) FAVICON_SIZES.
Proof.
  split; [exact sample_run_succeeds|].
  destruct (png_favicons_follow_the_table _ _ _ _ _ sample_world sample_run_succeeds)
    as (d & im & tr & _ & _ & E & T & _).
  exists tr. split; [exact E|]. rewrite T. reflexivity.
Defined.

(** Running twice on the sample project. *)
Lemma second_run_witness :
  fst (sample_generate_favicons sample_world) = Returned true
  /\ fs (snd (sample_generate_favicons (snd (sample_generate_favicons sample_world))))
     = fs (snd (sample_generate_favicons sample_world)).
Proof.
  split; [exact sample_run_succeeds|].
  exact (proj1 (proj2 (second_run_changes_nothing _ _ _ _ _ sample_world
                         sample_run_succeeds))).
Defined.

(** The half-transparent blue pixel of the sample logo on the background. *)
Lemma opaque_variant_witness :
  im_data (ensure_rgba sample_convert_data sample_logo) !! 2%nat = Some [0; 0; 255; 128]
  /\ im_data (opaque_variant sample_convert_data sample_logo) !! 2%nat
     = Some [BLEND 128 6 0; BLEND 128 57 0; BLEND 128 64 255].
Proof.
  split; [reflexivity|].
  refine (proj1 (proj2 (proj2 (proj2
            (opaque_variant_composites_over_background
               sample_convert_data sample_logo 2 0 0 255 128 _ _ _ _ _ _)))));
    [reflexivity | vm_compute; lia | lia | lia | lia | lia].
Defined.

(** ** Where the script looks *)



(** ** Whole images through the compositing *)

(** Well-formed pixels and images, as tests. *)
Definition is_byte (v : Z) : bool := (0 <=? v) && (v <=? 255).

Definition rgba_pixel (p : Pixel) : bool :=
  Nat.eqb (length p) 4 && forallb is_byte p.

Definition rgb_pixel (p : Pixel) : bool :=
  Nat.eqb (length p) 3 && forallb is_byte p.

(** An ["RGBA"] raster: as many pixels as the size says, four bytes each. *)
Definition rgba_raster (im : Image) : bool :=
  Nat.eqb (length (im_data im)) (Z.to_nat (fst (im_size im) * snd (im_size im)))
  && forallb rgba_pixel (im_data im).

(** The alpha of a pixel of four bands. *)
Definition alpha_of (p : Pixel) : Z := nth 3 p 0.

(** A sample logo without transparency and one that is all transparent. *)
Definition sample_opaque_logo : Image :=
  {| im_mode := "RGBA"; im_size := (2, 1);
     im_data := [ [1; 2; 3; 255]; [250; 128; 0; 255] ] |}.

Definition sample_clear_logo : Image :=
  {| im_mode := "RGBA"; im_size := (1, 2);
     im_data := [ [1; 2; 3; 0]; [250; 128; 0; 0] ] |}.

Lemma is_byte_spec (v : Z) : is_byte v = true <-> 0 <= v <= 255.
Proof. unfold is_byte. rewrite andb_true_iff, !Z.leb_le. reflexivity. Qed.

Lemma BLEND_byte (a x y : Z) :
  0 <= a <= 255 -> 0 <= x <= 255 -> 0 <= y <= 255 -> 0 <= BLEND a x y <= 255.
Proof.
  intros Ha Hx Hy. unfold BLEND.
  pose proof (BLEND_range a x y Ha Hx Hy) as R.
  pose proof (DIV255_nearest _ R). lia.
Qed.

(** A pixel that passes [rgba_pixel], taken apart. *)
Lemma rgba_pixel_inv (p : Pixel) :
  rgba_pixel p = true ->
  exists r g b a,
    p = [r; g; b; a]
    /\ 0 <= r <= 255 /\ 0 <= g <= 255 /\ 0 <= b <= 255 /\ 0 <= a <= 255.
Proof.
  unfold rgba_pixel. rewrite andb_true_iff. intros [L B].
  destruct p as [|r [|g [|b [|a [|x p]]]]]; try discriminate L.
  cbn [forallb] in B. rewrite !andb_true_iff, !is_byte_spec in B.
  exists r, g, b, a. tauto.
Qed.

Section Compositing.

Variable convert_data : Image -> string -> list Pixel.

(** The pixel of the opaque variant over a source pixel. *)
Definition matte_pixel (p : Pixel) : Pixel :=
  paste_pixel (take 3 background_color_rgba) p [alpha_of p].

(** On a raster of the right length the compositing is a map over the
    pixels of the source. *)
Lemma make_img_rgb_data (src : Image) :
  im_mode src = "RGBA" ->
  length (im_data src) = Z.to_nat (fst (im_size src) * snd (im_size src)) ->
  im_data (make_img_rgb convert_data src) = map matte_pixel (im_data src).
Proof.
  intros M L. unfold make_img_rgb.
  rewrite alpha_band, paste_rgba_on_rgb by (assumption || reflexivity).
  cbn [im_data Image_new getchannel fst snd]. rewrite <- L.
  change (take 3 background_color_rgba) with [6; 57; 64].
  generalize (im_data src). intros l. induction l as [|p l IH]; [reflexivity|].
  cbn [length replicate map zip_with]. f_equal. exact IH.
Qed.

Lemma rgba_raster_inv (im : Image) :
  rgba_raster im = true ->
  length (im_data im) = Z.to_nat (fst (im_size im) * snd (im_size im))
  /\ forall p, In p (im_data im) -> rgba_pixel p = true.
Proof.
  unfold rgba_raster. rewrite andb_true_iff, Nat.eqb_eq, forallb_forall. tauto.
Qed.

Lemma matte_pixel_rgb (p : Pixel) : rgba_pixel p = true -> rgb_pixel (matte_pixel p) = true.
Proof.
  intros H. destruct (rgba_pixel_inv p H) as (r & g & b & a & -> & Hr & Hg & Hb & Ha).
  unfold matte_pixel, alpha_of, paste_pixel, rgb_pixel.
  cbn [nth hd take background_color_rgba zip_with length forallb Nat.eqb].
  rewrite !andb_true_iff, !is_byte_spec.
  repeat split; apply BLEND_byte; (assumption || lia).
Qed.

(** X12: over a well-formed ["RGBA"] raster the opaque variant has one
    pixel for each pixel of the source, and every pixel of it is three
    bytes: the blend never leaves the range 0 to 255 and the alpha band is
    gone. *)
Theorem opaque_variant_is_an_rgb_raster (im : Image) :
  rgba_raster (ensure_rgba convert_data im) = true ->
  length (im_data (opaque_variant convert_data im))
  = length (im_data (ensure_rgba convert_data im))
  /\ forallb rgb_pixel (im_data (opaque_variant convert_data im)) = true.
Proof.
  intros W. destruct (rgba_raster_inv _ W) as [L P].
  unfold opaque_variant.
  rewrite (make_img_rgb_data _ (ensure_rgba_mode convert_data im) L).
  split; [apply length_map|].
  apply forallb_forall. intros q Hq. apply in_map_iff in Hq as (p & <- & Hp).
  apply matte_pixel_rgb. now apply P.
Qed.

(** X13: a source without transparency (alpha 255 everywhere) goes
    through the compositing unchanged: the opaque variant is the source
    with its alpha band dropped. *)
Theorem opaque_source_passes_through (im : Image) :
  rgba_raster (ensure_rgba convert_data im) = true ->
  forallb (fun p => alpha_of p =? 255) (im_data (ensure_rgba convert_data im)) = true ->
  im_data (opaque_variant convert_data im)
  = map (take 3) (im_data (ensure_rgba convert_data im)).
Proof.
  intros W A. destruct (rgba_raster_inv _ W) as [L P].
  unfold opaque_variant.
  rewrite (make_img_rgb_data _ (ensure_rgba_mode convert_data im) L).
  apply map_ext_in. intros p Hp.
  destruct (rgba_pixel_inv p (P p Hp)) as (r & g & b & a & -> & Hr & Hg & Hb & Ha).
  rewrite forallb_forall in A. specialize (A _ Hp). cbn [alpha_of nth] in A.
  apply Z.eqb_eq in A. subst a.
  unfold matte_pixel, alpha_of, paste_pixel.
  cbn [nth hd take background_color_rgba zip_with].
  now rewrite !BLEND_opaque by assumption.
Qed.

(** A transparent pixel is replaced by the background. *)
Lemma matte_pixel_transparent (p : Pixel) :
  rgba_pixel p = true -> (alpha_of p =? 0) = true -> matte_pixel p = [6; 57; 64].
Proof.
  intros H A. destruct (rgba_pixel_inv p H) as (r & g & b & a & -> & Hr & Hg & Hb & Ha).
  cbn [alpha_of nth] in A. apply Z.eqb_eq in A. subst a.
  unfold matte_pixel, alpha_of, paste_pixel.
  cbn [nth hd take background_color_rgba zip_with].
  now rewrite !BLEND_transparent by lia.
Qed.

Lemma map_constant {A B} (f : A -> B) (c : B) (l : list A) :
  (forall x, In x l -> f x = c) -> map f l = replicate (length l) c.
Proof.
  induction l as [|x l IH]; intros H; [reflexivity|].
  cbn [map length replicate]. f_equal.
  - apply H. now left.
  - apply IH. intros y Hy. apply H. now right.
Qed.

(** X14: a source that is transparent everywhere (alpha 0) gives the
    plain background: every pixel of the opaque variant is (6, 57, 64),
    whatever colour the source has under its alpha. *)
Theorem transparent_source_gives_the_background (im : Image) :
  rgba_raster (ensure_rgba convert_data im) = true ->
  forallb (fun p => alpha_of p =? 0) (im_data (ensure_rgba convert_data im)) = true ->
  im_data (opaque_variant convert_data im)
  = replicate (length (im_data (ensure_rgba convert_data im))) [6; 57; 64].
Proof.
  intros W A. destruct (rgba_raster_inv _ W) as [L P].
  unfold opaque_variant.
  rewrite (make_img_rgb_data _ (ensure_rgba_mode convert_data im) L).
  rewrite forallb_forall in A. apply map_constant. intros p Hp.
  apply matte_pixel_transparent; [now apply P|now apply A].
Qed.

End Compositing.

(** ** More concrete inputs *)

(** A project whose logo does not decode. *)
Definition sample_broken_world : World :=
  {| fs := {[ LOGO_PATH sample_script_file := Foreign [] ]}; events := [] |}.

(** A project that still holds an earlier [favicon.ico]. *)
Definition sample_stale_world : World :=
  {| fs := <[ SAMPLE_PUBLIC_DIR </> "favicon.ico" := Text "stale" ]>
             {[ LOGO_PATH sample_script_file := sample_logo_file ]};
     events := [] |}.

(** An environment in which [favicon.ico] cannot be opened for writing. *)
Definition sample_ico_denied : Exception :=
  mkException "PermissionError" "[Errno 13] Permission denied".

Definition sample_open_error_ico (p : Path) : option Exception :=
  if decide (p = SAMPLE_PUBLIC_DIR </> "favicon.ico") then Some sample_ico_denied
  else None.

Lemma sample_stale_logo :
  fs sample_world !! LOGO_PATH sample_script_file
  = fs sample_stale_world !! LOGO_PATH sample_script_file.
Proof.
  cbn [fs sample_world sample_stale_world]. rewrite lookup_insert_ne.
  - reflexivity.
  - unfold SAMPLE_PUBLIC_DIR, LOGO_PATH. intros E. apply joinpath_inj in E.
    discriminate E.
Qed.

(** The broken logo: status 1 and an untouched project. *)
Lemma undecodable_source_witness :
  fst (sample_main sample_broken_world) = 1
  /\ fs (snd (sample_main sample_broken_world)) = fs sample_broken_world.
Proof.
  unfold sample_main.
  rewrite (undecodable_source_stops_before_any_write
             sample_script_file sample_decode sample_convert_data sample_resample
             sample_open_error sample_format_exc sample_broken_world (Foreign [])
             (mkException "UnidentifiedImageError" "cannot identify image file")).
  - split; reflexivity.
  - apply lookup_singleton_eq.
  - reflexivity.
Defined.

(** With the icon denied, the five PNG files stay and the run raises. *)
Lemma failed_write_witness :
  exists tr,
    generate_favicons sample_script_file sample_decode sample_convert_data
      sample_resample sample_open_error_ico sample_world
    = (Raised sample_ico_denied,
       {| fs := write_all
                  (take 5 (success_writes sample_script_file sample_convert_data
                             sample_resample sample_logo))
                  (fs sample_world);
          events := events sample_world ++ tr |})
    /\ writes tr
       = take 5 (success_writes sample_script_file sample_convert_data
                   sample_resample sample_logo).
Proof.
  apply (failed_write_keeps_earlier_files
           sample_script_file sample_decode sample_convert_data sample_resample
           sample_open_error_ico sample_world sample_logo_file sample_logo 5
           (SAMPLE_PUBLIC_DIR </> "favicon.ico") sample_ico_denied).
  - apply lookup_singleton_eq.
  - reflexivity.
  - reflexivity.
  - vm_compute. reflexivity.
  - repeat constructor; vm_compute; reflexivity.
Defined.

(** The seven writes of the sample project. *)
Lemma success_writes_witness :
  fst (sample_generate_favicons sample_world) = Returned true
  /\ exists tr,
       events (snd (sample_generate_favicons sample_world)) = events sample_world ++ tr
       /\ length (writes tr) = 7%nat.
Proof.
  split; [exact sample_run_succeeds|].
  destruct (success_writes_exactly_the_seven _ _ _ _ _ sample_world sample_run_succeeds)
    as (tr & E & _ & N & _).
  exists tr. split; [exact E|exact N].
Defined.

(** The stale icon is replaced by the one of a fresh project. *)
Lemma stale_outputs_witness :
  fst (sample_generate_favicons sample_stale_world) = Returned true
  /\ fs (snd (sample_generate_favicons sample_world))
       !! (SAMPLE_PUBLIC_DIR </> "favicon.ico")
     = fs (snd (sample_generate_favicons sample_stale_world))
         !! (SAMPLE_PUBLIC_DIR </> "favicon.ico").
Proof.
  destruct (outputs_depend_on_the_source_alone
              sample_script_file sample_decode sample_convert_data sample_resample
              sample_open_error sample_world sample_stale_world
              sample_stale_logo sample_run_succeeds) as [S F].
  split; [exact S|]. apply F.
  rewrite output_paths_unfold.
  do 5 apply list_elem_of_further. apply list_elem_of_here.
Defined.

(** The sample logo: four pixels in, four pixels of three bytes out. *)
Lemma rgb_raster_witness :
  rgba_raster (ensure_rgba sample_convert_data sample_logo) = true
  /\ forallb rgb_pixel (im_data (opaque_variant sample_convert_data sample_logo)) = true.
Proof.
  split; [reflexivity|].
  apply (opaque_variant_is_an_rgb_raster sample_convert_data sample_logo).
  reflexivity.
Defined.

(** The opaque sample logo keeps its colours. *)
Lemma opaque_source_witness :
  im_data (opaque_variant sample_convert_data sample_opaque_logo)
  = [ [1; 2; 3]; [250; 128; 0] ].
Proof.
  apply (opaque_source_passes_through sample_convert_data sample_opaque_logo);
    reflexivity.
Defined.

(** The transparent sample logo becomes the background. *)
Lemma transparent_source_witness :
  im_data (opaque_variant sample_convert_data sample_clear_logo)
  = [ [6; 57; 64]; [6; 57; 64] ].
Proof.
  apply (transparent_source_gives_the_background sample_convert_data sample_clear_logo);
    reflexivity.
Defined.
